(** * Customer-churn pipeline notebook: configuration objects and call sequence

    Embedding of [learning-projects/automl-sagemaker/2. Pipelines.ipynb].

    The notebook has two kinds of statements:
    - constructors of the workflow SDK, which only build objects in memory
      (parameters, processors, steps, one condition, the pipeline); they are
      embedded as data, with the SDK's keyword names;
    - calls whose result the notebook's text does not determine (session,
      bucket, role, image lookup, upload, upsert, start, describe, wait,
      list_steps); they are embedded as the calls of a small program monad,
      run against an arbitrary handler.

    Display-only statements ([print]) are left out. *)

From stdpp Require Import gmap strings list.
From Stdlib Require Import QArith.

Close Scope Q_scope.
Open Scope string_scope.

(** ** Values and pipeline variables *)

(** A Python primitive as the notebook passes them around. *)
Inductive PrimitiveType : Type :=
| PInt (z : Z)
| PStr (s : string)
| PFloat (q : Q).

(** [sagemaker.workflow.parameters.ParameterTypeEnum]. *)
Inductive ParameterTypeEnum : Type := STRING | INTEGER | BOOLEAN | FLOAT.

(** [sagemaker.workflow.parameters.Parameter] ([Parameter] is a reserved
    word here, hence the longer name): [default_value] is optional
    in the SDK. *)
Record PipelineParameter : Type := mkParameter {
  parameter_name : string;
  parameter_type : ParameterTypeEnum;
  default_value : option PrimitiveType
}.

Definition ParameterInteger (name : string) (default : Z) : PipelineParameter :=
  {| parameter_name := name; parameter_type := INTEGER;
     default_value := Some (PInt default) |}.

Definition ParameterString (name : string) (default : string) : PipelineParameter :=
  {| parameter_name := name; parameter_type := STRING;
     default_value := Some (PStr default) |}.

(** [sagemaker.workflow.properties.PropertyFile]. *)
Record PropertyFile : Type := mkPropertyFile {
  property_file_name : string;
  property_file_output_name : string;
  property_file_path : string
}.

#[global] Instance PropertyFile_eq_dec : EqDecision PropertyFile.
Proof. solve_decision. Defined.

(** One element of a [step.properties] access path. *)
Inductive PathElem : Type :=
| Attr (a : string)          (* .a      *)
| Key (k : string).          (* ["k"]   *)

(** What may stand where the SDK expects a value: a literal, a pipeline
    parameter, a property of a step that only exists while the pipeline
    runs, or a value read from a property file of a step. *)
Inductive PipelineVariable : Type :=
| Primitive (v : PrimitiveType)
| ParameterRef (p : PipelineParameter)
| Properties (step_name : string) (path : list PathElem)
| JsonGet (step_name : string) (property_file : PropertyFile)
          (json_path : string).

Definition str (s : string) : PipelineVariable := Primitive (PStr s).
Definition int (z : Z) : PipelineVariable := Primitive (PInt z).
Definition float (q : Q) : PipelineVariable := Primitive (PFloat q).

(** ** Jobs, steps, conditions, pipeline *)

(** [sagemaker.Session()]: the notebook reads one attribute of it. *)
Record Session : Type := mkSession { region_name : string }.

Record ProcessingInput : Type := mkProcessingInput {
  input_name : option string;
  input_source : PipelineVariable;
  input_destination : string
}.

Record ProcessingOutput : Type := mkProcessingOutput {
  output_name : string;
  output_source : string
}.

Record CacheConfig : Type := mkCacheConfig {
  enable_caching : bool;
  expire_after : option string
}.

Inductive Processor : Type :=
| SKLearnProcessor (framework_version : string)
    (instance_type instance_count : PipelineVariable)
    (sagemaker_session : Session) (role : string)
| ScriptProcessor (image_uri : string) (command : list string)
    (instance_type instance_count : PipelineVariable)
    (base_job_name : string) (sagemaker_session : Session) (role : string).

Record Estimator : Type := mkEstimator {
  estimator_image_uri : string;
  estimator_instance_type : PipelineVariable;
  estimator_instance_count : PipelineVariable;
  estimator_output_path : string;
  estimator_base_job_name : string;
  estimator_session : Session;
  estimator_role : string;
  hyperparameters : list (string * PipelineVariable)
}.

(** [Estimator.set_hyperparameters], called with keyword arguments, updates the dictionary of the
    estimator it is called on; later settings of a key win. *)
Definition set_hyperparameters (e : Estimator)
    (kwargs : list (string * PipelineVariable)) : Estimator :=
  {| estimator_image_uri := estimator_image_uri e;
     estimator_instance_type := estimator_instance_type e;
     estimator_instance_count := estimator_instance_count e;
     estimator_output_path := estimator_output_path e;
     estimator_base_job_name := estimator_base_job_name e;
     estimator_session := estimator_session e;
     estimator_role := estimator_role e;
     hyperparameters :=
       kwargs ++
       filter (fun kv => kv.1 ∉ kwargs.*1) (hyperparameters e) |}.

Record TrainingInput : Type := mkTrainingInput {
  s3_data : PipelineVariable;
  content_type : string
}.

Record MetricsSource : Type := mkMetricsSource {
  metrics_s3_uri : string;
  metrics_content_type : string
}.

Record ModelMetrics : Type := mkModelMetrics {
  model_statistics : option MetricsSource
}.

(** [sagemaker.workflow.conditions.ConditionTypeEnum], the comparisons. *)
Inductive ConditionTypeEnum : Type := EQ | GT | GTE | LT | LTE.

Record Condition : Type := mkCondition {
  condition_type : ConditionTypeEnum;
  left : PipelineVariable;
  right : PipelineVariable
}.

Definition ConditionGreaterThanOrEqualTo (left right : PipelineVariable)
  : Condition :=
  {| condition_type := GTE; left := left; right := right |}.

(** The steps and step collections the notebook builds. [cache_config] and
    [property_files] default to nothing in the SDK when the keyword is not
    given; [ConditionStep] and [RegisterModel] have no cache keyword here. *)
#[warnings="-register-all"]
Inductive Step : Type :=
| ProcessingStep (name : string) (processor : Processor)
    (inputs : list ProcessingInput) (outputs : list ProcessingOutput)
    (code : string) (property_files : list PropertyFile)
    (cache_config : option CacheConfig)
| TrainingStep (name : string) (estimator : Estimator)
    (inputs : list (string * TrainingInput))
    (cache_config : option CacheConfig)
| RegisterModel (name : string) (estimator : Estimator)
    (model_data : PipelineVariable)
    (content_types response_types : list string)
    (inference_instances transform_instances : list string)
    (model_package_group_name : string)
    (approval_status : PipelineVariable)
    (model_metrics : ModelMetrics)
| ConditionStep (name : string) (conditions : list Condition)
    (if_steps else_steps : list Step).

Definition step_name (s : Step) : string :=
  match s with
  | ProcessingStep n _ _ _ _ _ _ => n
  | TrainingStep n _ _ _ => n
  | RegisterModel n _ _ _ _ _ _ _ _ _ => n
  | ConditionStep n _ _ _ => n
  end.

(** [step.properties.<path>]: the reference records the step's name. *)
Definition properties (s : Step) (path : list PathElem) : PipelineVariable :=
  Properties (step_name s) path.

Definition step_cache_config (s : Step) : option CacheConfig :=
  match s with
  | ProcessingStep _ _ _ _ _ _ c => c
  | TrainingStep _ _ _ c => c
  | RegisterModel _ _ _ _ _ _ _ _ _ _ => None
  | ConditionStep _ _ _ _ => None
  end.

Record Pipeline : Type := mkPipeline {
  pipeline_name_of : string;
  parameters : list PipelineParameter;
  steps : list Step;
  pipeline_session : Session
}.

(** ** The notebook's objects, cell by cell *)

Definition prefix : string := "sagemaker/DEMO-pipelines-churn".
Definition base_job_prefix : string := "CustomerChurn".
Definition model_package_group_name : string := "ChurnModelPackageGroup-v1".
Definition pipeline_name : string := "ChurnPipeline-v1".

Definition raw_data_key : string := prefix +:+ "/data/RawData.csv".

Definition processing_instance_count : PipelineParameter :=
  ParameterInteger "ProcessingInstanceCount" 1.
Definition processing_instance_type : PipelineParameter :=
  ParameterString "ProcessingInstanceType" "ml.m5.xlarge".
Definition training_instance_type : PipelineParameter :=
  ParameterString "TrainingInstanceType" "ml.m5.xlarge".
Definition training_max_depth : PipelineParameter :=
  ParameterString "TrainingMaxDepth" "5".
Definition model_approval_status : PipelineParameter :=
  ParameterString "ModelApprovalStatus" "PendingManualApproval".

Definition evaluation_report : PropertyFile :=
  {| property_file_name := "EvaluationReport";
     property_file_output_name := "evaluation";
     property_file_path := "evaluation.json" |}.

Section Cells.
(** What the calls made before these cells returned:
    [sagemaker.Session()], [sm_session.default_bucket()],
    [sagemaker.get_execution_role()], [sagemaker.image_uris.retrieve(…)]
    and the URI the SDK put into
    [step_eval.arguments["ProcessingOutputConfig"]["Outputs"][0]["S3Output"]["S3Uri"]]. *)
Variable sm_session : Session.
Variables bucket role image_uri eval_output_s3uri : string.

Definition raw_data_s3uri : string :=
  "s3://" +:+ bucket +:+ "/" +:+ raw_data_key.

Definition input_data : PipelineParameter :=
  ParameterString "InputDataUrl" raw_data_s3uri.

Definition sklearn_processor : Processor :=
  SKLearnProcessor "0.23-1"
    (ParameterRef processing_instance_type)
    (ParameterRef processing_instance_count)
    sm_session role.

Definition step_process : Step :=
  ProcessingStep "CustomerChurnProcess" sklearn_processor
    [ {| input_name := Some "raw";
         input_source := ParameterRef input_data;
         input_destination := "/opt/ml/processing/input/raw" |} ]
    [ {| output_name := "train";
         output_source := "/opt/ml/processing/train" |};
      {| output_name := "validation";
         output_source := "/opt/ml/processing/validation" |};
      {| output_name := "test";
         output_source := "/opt/ml/processing/test" |} ]
    "./preprocess.py"
    []
    (Some {| enable_caching := true; expire_after := Some "T2H" |}).

Definition model_path : string :=
  "s3://" +:+ bucket +:+ "/" +:+ base_job_prefix +:+ "/CustomerChurnTrain".

Definition xgb_train : Estimator :=
  set_hyperparameters
    {| estimator_image_uri := image_uri;
       estimator_instance_type := ParameterRef training_instance_type;
       estimator_instance_count := int 1;
       estimator_output_path := model_path;
       estimator_base_job_name := base_job_prefix +:+ "/CustomerChurn-train";
       estimator_session := sm_session;
       estimator_role := role;
       hyperparameters := [] |}
    [ ("objective", str "binary:logistic");
      ("num_round", int 50);
      ("max_depth", ParameterRef training_max_depth);
      ("eta", float 0.2);
      ("gamma", int 4);
      ("min_child_weight", int 6);
      ("subsample", float 0.7) ].

Definition step_train : Step :=
  TrainingStep "CustomerChurnTrain" xgb_train
    [ ("train",
       {| s3_data := properties step_process
                       [Attr "ProcessingOutputConfig"; Attr "Outputs";
                        Key "train"; Attr "S3Output"; Attr "S3Uri"];
          content_type := "text/csv" |});
      ("validation",
       {| s3_data := properties step_process
                       [Attr "ProcessingOutputConfig"; Attr "Outputs";
                        Key "validation"; Attr "S3Output"; Attr "S3Uri"];
          content_type := "text/csv" |}) ]
    None.

Definition script_eval : Processor :=
  ScriptProcessor image_uri ["python3"]
    (ParameterRef processing_instance_type) (int 1)
    (base_job_prefix +:+ "/script-CustomerChurn-eval")
    sm_session role.

Definition step_eval : Step :=
  ProcessingStep "CustomerChurnEval" script_eval
    [ {| input_name := None;
         input_source := properties step_train
                           [Attr "ModelArtifacts"; Attr "S3ModelArtifacts"];
         input_destination := "/opt/ml/processing/model" |};
      {| input_name := None;
         input_source := properties step_process
                           [Attr "ProcessingOutputConfig"; Attr "Outputs";
                            Key "test"; Attr "S3Output"; Attr "S3Uri"];
         input_destination := "/opt/ml/processing/test" |} ]
    [ {| output_name := "evaluation";
         output_source := "/opt/ml/processing/evaluation" |} ]
    "./evaluate.py"
    [evaluation_report]
    None.

Definition model_metrics : ModelMetrics :=
  {| model_statistics :=
       Some {| metrics_s3_uri := eval_output_s3uri +:+ "/evaluation.json";
               metrics_content_type := "application/json" |} |}.

Definition step_register : Step :=
  RegisterModel "CustomerChurnRegisterModel" xgb_train
    (properties step_train [Attr "ModelArtifacts"; Attr "S3ModelArtifacts"])
    ["text/csv"] ["text/csv"]
    ["ml.t2.medium"; "ml.m5.large"] ["ml.m5.large"]
    model_package_group_name
    (ParameterRef model_approval_status)
    model_metrics.

Definition cond_register : Condition :=
  ConditionGreaterThanOrEqualTo
    (JsonGet (step_name step_eval) evaluation_report
             "binary_classification_metrics.f1.value")
    (float 0.8).

Definition step_cond : Step :=
  ConditionStep "CustomerChurnAccuracyCond"
    [cond_register] [step_register] [].

Definition pipeline : Pipeline :=
  {| pipeline_name_of := pipeline_name;
     parameters :=
       [ processing_instance_type;
         processing_instance_count;
         training_max_depth;
         training_instance_type;
         model_approval_status;
         input_data ];
     steps := [step_process; step_train; step_eval; step_cond];
     pipeline_session := sm_session |}.
End Cells.

(** The dictionary of the second [pipeline.start]. *)
Definition second_start_parameters : gmap string PrimitiveType :=
  {[ "ProcessingInstanceType" := PStr "ml.c5.xlarge";
     "ModelApprovalStatus" := PStr "Approved";
     "TrainingMaxDepth" := PStr "6" ]}.

(** ** Calls into the client libraries *)

(** What [pipeline.start] returns: the handle of one execution. *)
Record Execution : Type := mkExecution { execution_id : nat }.

Inductive StepStatus : Type := Succeeded | Failed.

(** One entry of [execution.list_steps()]: of what the service reports of a
    step, its name and its status. *)
Record StepSummary : Type := mkStepSummary {
  StepName : string;
  StepStatusOf : StepStatus
}.

(** A Python exception: class name and message. *)
Record Exception : Type := mkException {
  exception_class : string;
  exception_message : string
}.

(** The statements of the notebook whose result comes from outside. A
    handler may answer any of them with an exception; the shell escape of
    the notebook never raises, which only leaves fewer runs to consider. *)
Inductive call : Type :=
| sagemaker_Session                 (* sagemaker.Session() *)
| boto3_resource (service : string) (* boto3.resource(service) *)
| default_bucket (s : Session)      (* s.default_bucket() *)
| get_execution_role                (* sagemaker.get_execution_role() *)
| shell (command : string)          (* !command *)
| upload_file (bucket key filename : string)
    (* s3.Bucket(bucket).Object(key).upload_file(filename) *)
| image_uris_retrieve (framework region version py_version : string)
    (instance_type : PipelineVariable)
    (* sagemaker.image_uris.retrieve(...) *)
| step_output_s3uri (s : Step) (index : nat)
    (* s.arguments["ProcessingOutputConfig"]["Outputs"][index]["S3Output"]["S3Uri"] *)
| upsert (p : Pipeline) (role_arn : string)
    (* p.upsert(role_arn=role_arn) *)
| start (p : Pipeline) (parameters : option (gmap string PrimitiveType))
    (* p.start(parameters=parameters) *)
| describe (e : Execution)          (* e.describe() *)
| wait (e : Execution)              (* e.wait() *)
| list_steps (e : Execution).       (* e.list_steps() *)

(** What a call returns; of the dictionary that [describe] returns only the
    status is kept, of the one that [upsert] returns only the ARN. *)

Definition response (c : call) : Type :=
  match c with
  | sagemaker_Session => Session
  | boto3_resource _ => unit
  | default_bucket _ => string
  | get_execution_role => string
  | shell _ => unit
  | upload_file _ _ _ => unit
  | image_uris_retrieve _ _ _ _ _ => string
  | step_output_s3uri _ _ => string
  | upsert _ _ => string
  | start _ _ => Execution
  | describe _ => StepStatus
  | wait _ => unit
  | list_steps _ => list StepSummary
  end.

(** The call without its arguments. *)
Inductive call_kind : Type :=
| KSession | KResource | KDefaultBucket | KRole | KShell | KUpload
| KImageUri | KStepArguments | KUpsert | KStart | KDescribe | KWait
| KListSteps.

Definition kind_of (c : call) : call_kind :=
  match c with
  | sagemaker_Session => KSession
  | boto3_resource _ => KResource
  | default_bucket _ => KDefaultBucket
  | get_execution_role => KRole
  | shell _ => KShell
  | upload_file _ _ _ => KUpload
  | image_uris_retrieve _ _ _ _ _ => KImageUri
  | step_output_s3uri _ _ => KStepArguments
  | upsert _ _ => KUpsert
  | start _ _ => KStart
  | describe _ => KDescribe
  | wait _ => KWait
  | list_steps _ => KListSteps
  end.

#[global] Instance call_kind_eq_dec : EqDecision call_kind.
Proof. solve_decision. Defined.

(** ** Programs

    Python statements in sequence, with the one construct that could stop
    an exception on its way out: [Try body except] is
    [try: body / except Exception as e: except(e)]. *)
Inductive prog : Type -> Type :=
| Ret {A : Type} (a : A) : prog A
| Call (c : call) : prog (response c)
| Bind {A B : Type} (m : prog A) (k : A -> prog B) : prog B
| Try {A : Type} (body : prog A) (except : Exception -> prog A) : prog A.

Declare Scope prog_scope.
Delimit Scope prog_scope with prog.
Bind Scope prog_scope with prog.
Notation "x <- m ;; k" := (Bind m (fun x => k))
  (at level 100, m at next level, right associativity) : prog_scope.
Notation "m ;; k" := (Bind m (fun _ => k))
  (at level 100, right associativity) : prog_scope.

(** A program without [Try]. *)
Inductive handler_free : forall A : Type, prog A -> Prop :=
| hf_ret A (a : A) : handler_free A (Ret a)
| hf_call c : handler_free (response c) (Call c)
| hf_bind A B (m : prog A) (k : A -> prog B) :
    handler_free A m -> (forall a, handler_free B (k a)) ->
    handler_free B (Bind m k).

Section Run.
(** The world outside the notebook and how it answers a call: a new world
    and either an exception or the call's result. *)
Variable W : Type.
Variable h : forall c : call, W -> W * (Exception + response c).

(** [run p w]: the calls issued, each with the world it met, the final
    world, and the exception that came out or the value returned. *)
Fixpoint run {A : Type} (p : prog A) (w : W)
  : list (call * W) * W * (Exception + A) :=
  match p in prog A return list (call * W) * W * (Exception + A) with
  | Ret a => ([], w, inr a)
  | Call c => let '(w', r) := h c w in ([(c, w)], w', r)
  | Bind m k =>
      match run m w with
      | (t1, w1, inl e) => (t1, w1, inl e)
      | (t1, w1, inr a) =>
          let '(t2, w2, r) := run (k a) w1 in ((t1 ++ t2)%list, w2, r)
      end
  | Try body except =>
      match run body w with
      | (t1, w1, inl e) =>
          let '(t2, w2, r) := run (except e) w1 in ((t1 ++ t2)%list, w2, r)
      | (t1, w1, inr a) => (t1, w1, inr a)
      end
  end.

Definition calls {A : Type} (p : prog A) (w : W) : list call :=
  (run p w).1.1.*1.

Definition outcome {A : Type} (p : prog A) (w : W) : Exception + A :=
  (run p w).2.

(** The call [c] met world [w] and returned. *)
Definition returns (cw : call * W) : Prop :=
  exists r, (h cw.1 cw.2).2 = inr r.
End Run.

Arguments run {W} h {A} p w.
Arguments calls {W} h {A} p w.
Arguments outcome {W} h {A} p w.
Arguments returns {W} h cw.

(** ** The notebook, top to bottom *)

Definition notebook : prog unit :=
  (sm_session <- Call sagemaker_Session ;;
   Call (boto3_resource "s3") ;;
   bucket <- Call (default_bucket sm_session) ;;
   role <- Call get_execution_role ;;
   Call (shell "aws s3 cp s3://sagemaker-sample-files/datasets/tabular/synthetic/churn.txt ./data/churn.txt") ;;
   Call (upload_file bucket raw_data_key "./data/churn.txt") ;;
   image_uri <- Call (image_uris_retrieve "xgboost" (region_name sm_session)
                        "1.3-1" "py3" (ParameterRef training_instance_type)) ;;
   eval_output_s3uri <-
     Call (step_output_s3uri (step_eval sm_session bucket role image_uri) 0) ;;
   let pipeline := pipeline sm_session bucket role image_uri eval_output_s3uri in
   Call (upsert pipeline role) ;;
   execution <- Call (start pipeline None) ;;
   Call (describe execution) ;;
   Call (wait execution) ;;
   Call (list_steps execution) ;;
   execution <- Call (start pipeline (Some second_start_parameters)) ;;
   Call (wait execution))%prog.

(** ** Parameters of an execution and dependencies between steps *)

(** Modelled from the spec: the choice of a parameter's value for one
    execution, which the remote pipeline service makes and which is no code
    of this repository (the notebook only calls [pipeline.start]). The spec
    has "pipeline parameters (name, type, default value)" and "start
    execution with optional parameter overrides"; the notebook's text
    before its second start says of the dictionary given to [start]: "a
    dictionary whose names are the parameter names, and whose values are the
    primitive values to use as overrides of the defaults". So a parameter
    that the dictionary names has the value given there, and any other has
    its default. *)
Definition resolve_parameter (overrides : gmap string PrimitiveType)
    (p : PipelineParameter) : option PrimitiveType :=
  match overrides !! parameter_name p with
  | Some v => Some v
  | None => default_value p
  end.

(** Modelled from the spec: the values of all declared parameters in an
    execution started with [overrides], by name, each chosen as in
    [resolve_parameter] (the same words of the spec and of the notebook; the
    remote service is no code of this repository). Of two declarations of
    one name the first counts. *)
Definition execution_parameters (declared : list PipelineParameter)
    (overrides : gmap string PrimitiveType) : gmap string PrimitiveType :=
  foldr (fun p m => match resolve_parameter overrides p with
                    | Some v => <[parameter_name p := v]> m
                    | None => m
                    end) ∅ declared.

(** The steps a variable refers to. *)
Definition variable_refs (v : PipelineVariable) : list string :=
  match v with
  | Primitive _ => []
  | ParameterRef _ => []
  | Properties s _ => [s]
  | JsonGet s _ _ => [s]
  end.

Definition processor_variables (p : Processor) : list PipelineVariable :=
  match p with
  | SKLearnProcessor _ t c _ _ => [t; c]
  | ScriptProcessor _ _ t c _ _ _ => [t; c]
  end.

Definition estimator_variables (e : Estimator) : list PipelineVariable :=
  estimator_instance_type e :: estimator_instance_count e ::
  (hyperparameters e).*2.

(** The variables among a step's own arguments (not those of the steps
    nested in the branches of a condition step). *)
Definition step_variables (s : Step) : list PipelineVariable :=
  match s with
  | ProcessingStep _ p ins _ _ _ _ =>
      (processor_variables p ++ (input_source <$> ins))%list
  | TrainingStep _ e ins _ =>
      (estimator_variables e ++ ((fun kv => s3_data kv.2) <$> ins))%list
  | RegisterModel _ e model_data _ _ _ _ _ approval _ =>
      (estimator_variables e ++ [model_data; approval])%list
  | ConditionStep _ conds _ _ =>
      conds ≫= (fun c => [left c; right c])
  end.

(** The steps whose results a step needs before it can run. *)
Definition step_dependencies (s : Step) : list string :=
  step_variables s ≫= variable_refs.

(** The orders in which the service may have completed steps of [ss]: a
    step is run once, and only after every step it depends on. *)
Inductive schedule (ss : list Step) : list string -> Prop :=
| schedule_nil : schedule ss []
| schedule_snoc done s :
    schedule ss done ->
    s ∈ ss ->
    step_name s ∉ done ->
    (forall d, d ∈ step_dependencies s -> d ∈ done) ->
    schedule ss (done ++ [step_name s])%list.

(** ** A stand-in for the outside world

    A handler to run the notebook against where a run on concrete answers
    is wanted. It answers every call with a fixed value, numbers the
    executions it is asked to start (its world is the number started so far)
    and reports each as succeeded. It stands for no real service: the
    theorems are about every handler. *)
Definition stub (c : call) (started : nat)
  : nat * (Exception + response c) :=
  match c return nat * (Exception + response c) with
  | sagemaker_Session => (started, inr {| region_name := "us-east-1" |})
  | boto3_resource _ => (started, inr tt)
  | default_bucket _ => (started, inr "sagemaker-us-east-1-000000000000")
  | get_execution_role =>
      (started, inr "arn:aws:iam::000000000000:role/SageMakerExecutionRole")
  | shell _ => (started, inr tt)
  | upload_file _ _ _ => (started, inr tt)
  | image_uris_retrieve framework _ version _ _ =>
      (started, inr (framework +:+ ":" +:+ version))
  | step_output_s3uri s _ =>
      (started, inr ("s3://sagemaker-us-east-1-000000000000/" +:+ step_name s
                       +:+ "/output"))
  | upsert p _ =>
      (started, inr ("arn:aws:sagemaker:us-east-1:000000000000:pipeline/"
                       +:+ pipeline_name_of p))
  | start _ _ => (S started, inr {| execution_id := started |})
  | describe _ => (started, inr Succeeded)
  | wait _ => (started, inr tt)
  | list_steps _ => (started, inr [])
  end.

(** ** Observations used in the statements *)

(** The definitions handed to [upsert] among the calls of a run. *)
Definition submitted (l : list call) : list Pipeline :=
  omap (fun c => match c with upsert p _ => Some p | _ => None end) l.

(** The calls of the notebook, top to bottom. *)
Definition notebook_kinds : list call_kind :=
  [ KSession; KResource; KDefaultBucket; KRole; KShell; KUpload; KImageUri;
    KStepArguments; KUpsert; KStart; KDescribe; KWait; KListSteps; KStart;
    KWait ].

(** Calls on the pipeline resource and on its executions. *)
Definition control_plane (k : call_kind) : bool :=
  match k with
  | KUpsert | KStart | KDescribe | KWait | KListSteps => true
  | _ => false
  end.

Inductive StepKind : Type :=
| Processing | Training | Registration | Conditional.

#[global] Instance StepKind_eq_dec : EqDecision StepKind.
Proof. solve_decision. Defined.

Definition step_kind (s : Step) : StepKind :=
  match s with
  | ProcessingStep _ _ _ _ _ _ _ => Processing
  | TrainingStep _ _ _ _ => Training
  | RegisterModel _ _ _ _ _ _ _ _ _ _ => Registration
  | ConditionStep _ _ _ _ => Conditional
  end.

Definition step_conditions (s : Step) : list Condition :=
  match s with ConditionStep _ conds _ _ => conds | _ => [] end.

Definition step_if_steps (s : Step) : list Step :=
  match s with ConditionStep _ _ ifs _ => ifs | _ => [] end.

Definition step_else_steps (s : Step) : list Step :=
  match s with ConditionStep _ _ _ elses => elses | _ => [] end.

Definition processing_inputs (s : Step) : list ProcessingInput :=
  match s with ProcessingStep _ _ ins _ _ _ _ => ins | _ => [] end.

Definition processing_outputs (s : Step) : list ProcessingOutput :=
  match s with ProcessingStep _ _ _ outs _ _ _ => outs | _ => [] end.

Definition step_property_files (s : Step) : list PropertyFile :=
  match s with ProcessingStep _ _ _ _ _ fs _ => fs | _ => [] end.

Definition training_inputs (s : Step) : list (string * TrainingInput) :=
  match s with TrainingStep _ _ ins _ => ins | _ => [] end.

Definition step_approval_status (s : Step) : option PipelineVariable :=
  match s with
  | RegisterModel _ _ _ _ _ _ _ _ approval _ => Some approval
  | _ => None
  end.

(** [step.properties.ProcessingOutputConfig.Outputs[name].S3Output.S3Uri]. *)
Definition output_uri (s : Step) (name : string) : PipelineVariable :=
  properties s [Attr "ProcessingOutputConfig"; Attr "Outputs"; Key name;
                Attr "S3Output"; Attr "S3Uri"].

(** What is declared of a parameter: name, type, default. *)
Definition parameter_triple (p : PipelineParameter)
  : string * ParameterTypeEnum * option PrimitiveType :=
  (parameter_name p, parameter_type p, default_value p).

(** A program that does stop an exception: the call is tried again once. *)
Definition retry_once (c : call) : prog (response c) :=
  Try (Call c) (fun _ => Call c).

(** A world whose first [n] calls raise and whose later calls answer like
    [stub]; the counter is the first component. *)
Definition flaky (c : call) (w : nat * nat)
  : (nat * nat) * (Exception + response c) :=
  match w.1 with
  | O => let '(s, r) := stub c w.2 in ((O, s), r)
  | S n => ((n, w.2), inl (mkException "ClientError" "throttled"))
  end.

(** The definition the notebook builds when the calls answer as [stub]
    does. *)
Definition service_pipeline : Pipeline :=
  pipeline {| region_name := "us-east-1" |}
    "sagemaker-us-east-1-000000000000"
    "arn:aws:iam::000000000000:role/SageMakerExecutionRole"
    "xgboost:1.3-1"
    "s3://sagemaker-us-east-1-000000000000/CustomerChurnEval/output".

(** ** Further observations on the definition and on a run *)

(** A step together with the steps nested in its branches. *)
Fixpoint with_nested (s : Step) : list Step :=
  s :: match s with
       | ConditionStep _ _ ifs elses =>
           ((ifs ≫= with_nested) ++ (elses ≫= with_nested))%list
       | _ => []
       end.

(** Every step of a definition, the nested ones after the step they are
    nested in. *)
Definition pipeline_steps (p : Pipeline) : list Step :=
  steps p ≫= with_nested.

Definition processor_role (p : Processor) : string :=
  match p with
  | SKLearnProcessor _ _ _ _ r => r
  | ScriptProcessor _ _ _ _ _ _ r => r
  end.

Definition processor_session (p : Processor) : Session :=
  match p with
  | SKLearnProcessor _ _ _ s _ => s
  | ScriptProcessor _ _ _ _ _ s _ => s
  end.

(** The IAM role and the session a step's job is created with; a condition
    step creates no job. *)
Definition step_role (s : Step) : option string :=
  match s with
  | ProcessingStep _ p _ _ _ _ _ => Some (processor_role p)
  | TrainingStep _ e _ _ => Some (estimator_role e)
  | RegisterModel _ e _ _ _ _ _ _ _ _ => Some (estimator_role e)
  | ConditionStep _ _ _ _ => None
  end.

Definition step_session (s : Step) : option Session :=
  match s with
  | ProcessingStep _ p _ _ _ _ _ => Some (processor_session p)
  | TrainingStep _ e _ _ => Some (estimator_session e)
  | RegisterModel _ e _ _ _ _ _ _ _ _ => Some (estimator_session e)
  | ConditionStep _ _ _ _ => None
  end.

(** The container image given to a step's job; the scikit-learn processor
    is given a framework version instead. *)
Definition step_image (s : Step) : option string :=
  match s with
  | ProcessingStep _ (ScriptProcessor image _ _ _ _ _ _) _ _ _ _ _ =>
      Some image
  | ProcessingStep _ (SKLearnProcessor _ _ _ _ _) _ _ _ _ _ => None
  | TrainingStep _ e _ _ => Some (estimator_image_uri e)
  | RegisterModel _ e _ _ _ _ _ _ _ _ => Some (estimator_image_uri e)
  | ConditionStep _ _ _ _ => None
  end.

Definition step_estimator (s : Step) : option Estimator :=
  match s with
  | TrainingStep _ e _ _ => Some e
  | RegisterModel _ e _ _ _ _ _ _ _ _ => Some e
  | _ => None
  end.

Definition step_instance_type (s : Step) : option PipelineVariable :=
  match s with
  | ProcessingStep _ (SKLearnProcessor _ t _ _ _) _ _ _ _ _ => Some t
  | ProcessingStep _ (ScriptProcessor _ _ t _ _ _ _) _ _ _ _ _ => Some t
  | TrainingStep _ e _ _ => Some (estimator_instance_type e)
  | _ => None
  end.

Definition step_instance_count (s : Step) : option PipelineVariable :=
  match s with
  | ProcessingStep _ (SKLearnProcessor _ _ c _ _) _ _ _ _ _ => Some c
  | ProcessingStep _ (ScriptProcessor _ _ _ c _ _ _) _ _ _ _ _ => Some c
  | TrainingStep _ e _ _ => Some (estimator_instance_count e)
  | _ => None
  end.

Definition step_model_data (s : Step) : option PipelineVariable :=
  match s with
  | RegisterModel _ _ model_data _ _ _ _ _ _ _ => Some model_data
  | _ => None
  end.

Definition step_model_statistics (s : Step) : option MetricsSource :=
  match s with
  | RegisterModel _ _ _ _ _ _ _ _ _ metrics => model_statistics metrics
  | _ => None
  end.

(** The pipeline parameters a variable, and a step's own arguments, refer
    to. *)
Definition variable_parameters (v : PipelineVariable)
  : list PipelineParameter :=
  match v with ParameterRef p => [p] | _ => [] end.

Definition step_parameters (s : Step) : list PipelineParameter :=
  step_variables s ≫= variable_parameters.

(** The execution a call is made on. *)
Definition call_handle (c : call) : option Execution :=
  match c with
  | describe e | wait e | list_steps e => Some e
  | _ => None
  end.

(** The definitions handed to [upsert], each with the role handed over with
    it. *)
Definition upserts (l : list call) : list (Pipeline * string) :=
  omap (fun c => match c with upsert p r => Some (p, r) | _ => None end) l.

(** Among the calls of the trace [t], the call [c] was made and returned
    [r]. *)
Definition answered {W : Type}
    (h : forall c : call, W -> W * (Exception + response c))
    (t : list (call * W)) (c : call) (r : response c) : Prop :=
  exists w, (c, w) ∈ t /\ (h c w).2 = inr r.

(** The definitions handed to [start], each with the dictionary handed over
    with it ([None] when [start] is called without one). *)
Definition starts (l : list call)
  : list (Pipeline * option (gmap string PrimitiveType)) :=
  omap (fun c => match c with start p o => Some (p, o) | _ => None end) l.

(** * Theorems *)

(** ** Running programs *)

Section RunFacts.
Context {W : Type} (h : forall c : call, W -> W * (Exception + response c)).

(** Without [Try], a run either returns after calls that all returned, or
    ends at the first call that raised, with that call's exception and
    the world as that call left it. *)
Lemma run_handler_free A (p : prog A) :
  handler_free A p ->
  forall w,
    match run h p w with
    | (t, w', inl e) =>
        exists t0 c wc,
          t = (t0 ++ [(c, wc)])%list /\ h c wc = (w', inl e) /\
          Forall (returns h) t0
    | (t, _, inr _) => Forall (returns h) t
    end.
Proof.
  induction 1 as [A a | c | A B m k Hm IHm Hk IHk]; intros w; cbn.
  - constructor.
  - destruct (h c w) as [w' [e | r]] eqn:Hc.
    + exists [], c, w. repeat split; [done | constructor].
    + repeat constructor. exists r. cbn. by rewrite Hc.
  - specialize (IHm w). destruct (run h m w) as [[t1 w1] [e | a]]; [done |].
    specialize (IHk a w1). destruct (run h (k a) w1) as [[t2 w2] [e | b]].
    + destruct IHk as (t0 & c & wc & -> & Hc & Ht0).
      exists (t1 ++ t0)%list, c, wc. rewrite app_assoc.
      repeat split; [done |]. by apply Forall_app.
    + by apply Forall_app.
Qed.
End RunFacts.

Lemma handler_free_notebook : handler_free unit notebook.
Proof.
  unfold notebook.
  repeat first
    [ apply hf_bind | apply hf_ret | progress intros | progress cbv zeta
    | match goal with |- handler_free _ (Call ?c) => exact (hf_call c) end ].
Qed.

(** With [Try] the same exception need not come out: a call that is
    throttled once and tried again returns. *)
Example retry_once_recovers :
  outcome flaky (retry_once get_execution_role)
    (1, 0)
  = inr "arn:aws:iam::000000000000:role/SageMakerExecutionRole".
Proof. reflexivity. Qed.

(** Case analysis on the answers to the calls of the notebook. *)
Ltac answer h :=
  match goal with
  | |- context [h ?c ?w] =>
      let w' := fresh "w" in
      let e := fresh "e" in
      let r := fresh "r" in
      destruct (h c w) as [w' [e | r]] eqn:?; cbn
  end.

Ltac run_notebook h :=
  unfold calls, outcome, notebook; cbn; repeat answer h.

(** Whatever the answers, a run that comes to its end has made the
    notebook's calls in the notebook's order, and a run that is cut short
    has made a prefix of them. *)
Lemma notebook_call_kinds W
    (h : forall c : call, W -> W * (Exception + response c)) (w : W) :
  match outcome h notebook w with
  | inr _ => kind_of <$> calls h notebook w = notebook_kinds
  | inl _ => kind_of <$> calls h notebook w `prefix_of` notebook_kinds
  end.
Proof.
  run_notebook h; first [reflexivity | by eexists].
Qed.

(** ** The definition that is submitted *)

(** C2: the notebook submits one definition (none when a call before the
    upsert raised), and every definition it hands to [upsert] has exactly
    four entries in its step list, in this order: the processing step
    CustomerChurnProcess, the training step CustomerChurnTrain, the
    processing step CustomerChurnEval that evaluates, and the condition step
    CustomerChurnAccuracyCond. The registration is not a fifth entry: it is
    the one step nested in the condition step. *)
Theorem pipeline_has_four_steps W
    (h : forall c : call, W -> W * (Exception + response c)) (w : W) :
  match outcome h notebook w with
  | inr _ => length (submitted (calls h notebook w)) = 1
  | inl _ => length (submitted (calls h notebook w)) <= 1
  end /\
  Forall (fun p =>
            (fun s => (step_kind s, step_name s)) <$> steps p =
              [ (Processing, "CustomerChurnProcess");
                (Training, "CustomerChurnTrain");
                (Processing, "CustomerChurnEval");
                (Conditional, "CustomerChurnAccuracyCond") ] /\
            length (steps p) = 4 /\
            (fun s => (step_kind s, step_name s))
              <$> (steps p ≫= fun s => step_if_steps s ++ step_else_steps s)%list =
              [ (Registration, "CustomerChurnRegisterModel") ])
         (submitted (calls h notebook w)).
Proof.
  split.
  - run_notebook h; first [reflexivity | lia].
  - run_notebook h; repeat constructor.
Qed.

(** C1: in every definition the notebook submits there is one condition in
    all, of type greater-or-equal, with the value at
    [binary_classification_metrics.f1.value] of the evaluation step's
    property file EvaluationReport on the left and the constant 0.8 on the
    right; the condition step holds this one condition, the registration as
    the only step of its if-branch, and an empty else-branch. The condition
    is data in the definition: whatever the service answers, a run of the
    notebook that reaches its end has made the same calls. *)
Theorem registration_gate_is_one_declared_condition W
    (h : forall c : call, W -> W * (Exception + response c)) (w : W) :
  Forall (fun p =>
            steps p ≫= step_conditions =
              [ {| condition_type := GTE;
                   left := JsonGet "CustomerChurnEval" evaluation_report
                             "binary_classification_metrics.f1.value";
                   right := Primitive (PFloat 0.8) |} ] /\
            (fun s => (step_name s, step_property_files s))
              <$> filter (fun s => evaluation_report ∈ step_property_files s)
                         (steps p) =
              [ ("CustomerChurnEval", [evaluation_report]) ] /\
            (fun s => (step_kind s, step_name s, length (step_conditions s),
                       (fun s' => (step_kind s', step_name s'))
                         <$> step_if_steps s,
                       step_else_steps s))
              <$> filter (fun s => step_kind s = Conditional) (steps p) =
              [ (Conditional, "CustomerChurnAccuracyCond", 1,
                 [ (Registration, "CustomerChurnRegisterModel") ], []) ])
         (submitted (calls h notebook w)) /\
  match outcome h notebook w with
  | inr _ => kind_of <$> calls h notebook w = notebook_kinds
  | inl _ => kind_of <$> calls h notebook w `prefix_of` notebook_kinds
  end.
Proof.
  split; [| apply notebook_call_kinds].
  run_notebook h; repeat constructor.
Qed.

(** A run of the notebook that comes to its end has submitted one
    definition; a run that is cut short has submitted one or none. *)
Lemma notebook_submits_once W
    (h : forall c : call, W -> W * (Exception + response c)) (w : W) :
  match outcome h notebook w with
  | inr _ => length (submitted (calls h notebook w)) = 1
  | inl _ => length (submitted (calls h notebook w)) <= 1
  end.
Proof.
  run_notebook h; first [reflexivity | lia].
Qed.

(** C9: the notebook submits one definition (none when a call before the
    upsert raised), and in every definition it submits the preprocessing
    step has caching enabled with expiry "T2H"; the training step, the
    evaluation step and the condition step have no cache configuration (and
    neither has the registration nested in the condition step). *)
Theorem caching_only_on_preprocessing W
    (h : forall c : call, W -> W * (Exception + response c)) (w : W) :
  match outcome h notebook w with
  | inr _ => length (submitted (calls h notebook w)) = 1
  | inl _ => length (submitted (calls h notebook w)) <= 1
  end /\
  Forall (fun p =>
            (fun s => (step_name s, step_cache_config s)) <$> steps p =
              [ ("CustomerChurnProcess",
                 Some {| enable_caching := true; expire_after := Some "T2H" |});
                ("CustomerChurnTrain", None);
                ("CustomerChurnEval", None);
                ("CustomerChurnAccuracyCond", None) ] /\
            step_cache_config <$> (steps p ≫= step_if_steps) = [None])
         (submitted (calls h notebook w)).
Proof.
  split; [apply notebook_submits_once |].
  run_notebook h; repeat constructor.
Qed.

(** Bring the head of the left list to the front of the right one. *)
Ltac permutation_by_search :=
  repeat first
    [ apply Permutation_refl
    | apply perm_skip
    | apply (Permutation_cons_app [_] _ _); cbn [app]
    | apply (Permutation_cons_app [_; _] _ _); cbn [app]
    | apply (Permutation_cons_app [_; _; _] _ _); cbn [app]
    | apply (Permutation_cons_app [_; _; _; _] _ _); cbn [app]
    | apply (Permutation_cons_app [_; _; _; _; _] _ _); cbn [app] ].

(** C3: the notebook submits one definition (none when a call before the
    upsert raised), and every definition it submits aggregates exactly six
    parameters, each with a name, a type and a default value:
    ProcessingInstanceCount (integer, 1), ProcessingInstanceType (string,
    "ml.m5.xlarge"), InputDataUrl (string, the S3 URI of the object the
    notebook uploaded the raw data to), TrainingInstanceType (string,
    "ml.m5.xlarge"), TrainingMaxDepth (string, "5") and ModelApprovalStatus
    (string, "PendingManualApproval"). The pipeline holds them in another
    order than this one. *)
Theorem pipeline_has_six_parameters W
    (h : forall c : call, W -> W * (Exception + response c)) (w : W) :
  match outcome h notebook w with
  | inr _ => length (submitted (calls h notebook w)) = 1
  | inl _ => length (submitted (calls h notebook w)) <= 1
  end /\
  Forall (fun p =>
            exists bucket key,
              upload_file bucket key "./data/churn.txt" ∈ calls h notebook w /\
              parameter_triple <$> parameters p ≡ₚ
                [ ("ProcessingInstanceCount", INTEGER, Some (PInt 1));
                  ("ProcessingInstanceType", STRING, Some (PStr "ml.m5.xlarge"));
                  ("InputDataUrl", STRING,
                   Some (PStr ("s3://" +:+ bucket +:+ "/" +:+ key)));
                  ("TrainingInstanceType", STRING, Some (PStr "ml.m5.xlarge"));
                  ("TrainingMaxDepth", STRING, Some (PStr "5"));
                  ("ModelApprovalStatus", STRING,
                   Some (PStr "PendingManualApproval")) ] /\
              length (parameters p) = 6 /\
              Forall (fun q => is_Some (default_value q)) (parameters p))
         (submitted (calls h notebook w)).
Proof.
  split; [apply notebook_submits_once |].
  run_notebook h; first [apply Forall_nil_2 | apply Forall_singleton];
    cbv beta; do 2 eexists;
    (split; [do 5 apply list_elem_of_further; apply list_elem_of_here |]);
    (split; [cbn; permutation_by_search |]);
    (split; [reflexivity |]);
    cbn; repeat (apply Forall_cons_2; [by eexists |]); apply Forall_nil_2.
Qed.

(** ** Exceptions and the order of calls *)

(** C5: the notebook has no [try]; so in every world, a run of it either
    ends normally after calls that all returned (then it has made all its
    calls, among them the upload, upsert, start, describe, wait and
    list_steps), or it ends at the first call that raised: that call is the
    last one made, it was made once, and what comes out of the notebook is
    that call's own exception. *)
Theorem exceptions_propagate_unchanged W
    (h : forall c : call, W -> W * (Exception + response c)) (w : W) :
  handler_free unit notebook /\
  match run h notebook w with
  | (t, w', inl e) =>
      exists t0 c wc,
        t = (t0 ++ [(c, wc)])%list /\ h c wc = (w', inl e) /\
        Forall (returns h) t0
  | (t, _, inr _) =>
      Forall (returns h) t /\ kind_of <$> t.*1 = notebook_kinds
  end.
Proof.
  split; [apply handler_free_notebook |].
  pose proof (run_handler_free h unit notebook handler_free_notebook w) as Hrun.
  pose proof (notebook_call_kinds W h w) as Hkinds.
  unfold outcome, calls in Hkinds.
  destruct (run h notebook w) as [[t w'] [e | []]]; [done |].
  by split.
Qed.

(** C6: among the calls of a run, those on the pipeline and its executions
    are upsert, start, describe, wait, list_steps, start, wait, in this
    order, or a prefix of that when a call raised; so wherever a start (or
    describe, wait, list_steps) occurs among the calls, an upsert occurs
    before it, and that upsert returned. *)
Theorem upsert_precedes_execution_calls W
    (h : forall c : call, W -> W * (Exception + response c)) (w : W) :
  let t := (run h notebook w).1.1 in
  let ks := kind_of <$> t.*1 in
  filter (fun k => control_plane k) ks `prefix_of`
    [KUpsert; KStart; KDescribe; KWait; KListSteps; KStart; KWait] /\
  match outcome h notebook w with
  | inr _ => filter (fun k => control_plane k) ks =
               [KUpsert; KStart; KDescribe; KWait; KListSteps; KStart; KWait]
  | inl _ => True
  end /\
  forall i k, ks !! i = Some k -> k ∈ [KStart; KDescribe; KWait; KListSteps] ->
    exists j cw, j < i /\ t !! j = Some cw /\ kind_of cw.1 = KUpsert /\
                 returns h cw.
Proof.
  intros t ks.
  pose proof (notebook_call_kinds W h w) as Hkinds.
  pose proof (run_handler_free h unit notebook handler_free_notebook w) as Hrun.
  unfold outcome, calls in *. subst t ks.
  destruct (run h notebook w) as [[t w'] r]; cbn in *.
  assert (kind_of <$> t.*1 `prefix_of` notebook_kinds) as [rest Hrest].
  { destruct r as [e | []]; [done | by rewrite Hkinds]. }
  split; [| split].
  - exists (filter (fun k => control_plane k) rest).
    by rewrite <- filter_app, <- Hrest.
  - destruct r as [e | []]; [done | by rewrite Hkinds].
  - intros i k Hi Hk.
    assert (notebook_kinds !! i = Some k) as Hi'.
    { rewrite Hrest. by apply lookup_app_l_Some. }
    assert (8 < i) as Hlt.
    { do 9 (destruct i as [| i];
              [ exfalso; cbn in Hi'; injection Hi' as <-;
                rewrite !elem_of_cons, elem_of_nil in Hk;
                intuition discriminate |]).
      lia. }
    assert (8 < length t) as Hlen.
    { apply lookup_lt_Some in Hi. rewrite !length_fmap in Hi. lia. }
    destruct (lookup_lt_is_Some_2 t 8 Hlen) as [cw Hcw].
    exists 8, cw. split; [done |]. split; [done |]. split.
    + assert (notebook_kinds !! 8 = Some (kind_of cw.1)) as H8.
      { rewrite Hrest. apply lookup_app_l_Some.
        by rewrite !list_lookup_fmap, Hcw. }
      cbn in H8. by simplify_eq.
    + destruct r as [e | []].
      * destruct Hrun as (t0 & c & wc & -> & _ & Ht0).
        rewrite Forall_lookup in Ht0. apply (Ht0 8).
        rewrite lookup_app_l in Hcw; [done |].
        apply lookup_lt_Some in Hi.
        rewrite !length_fmap, length_app in Hi. cbn in Hi. lia.
      * rewrite Forall_lookup in Hrun. by apply (Hrun 8).
Qed.

(** ** Parameters of an execution *)

Lemma execution_parameters_lookup_None declared overrides name :
  name ∉ parameter_name <$> declared ->
  execution_parameters declared overrides !! name = None.
Proof.
  induction declared as [| p l IH]; cbn; intros Hname; [done |].
  apply not_elem_of_cons in Hname as [Hne Hl].
  destruct (resolve_parameter overrides p);
    [rewrite lookup_insert_ne by done |]; by apply IH.
Qed.

(** An execution gives every declared parameter the override of its name
    when there is one and its default otherwise. *)
Lemma execution_parameters_lookup declared overrides q :
  NoDup (parameter_name <$> declared) ->
  q ∈ declared ->
  execution_parameters declared overrides !! parameter_name q =
    resolve_parameter overrides q.
Proof.
  induction declared as [| p l IH]; cbn; intros Hnodup Hq.
  - by apply elem_of_nil in Hq.
  - apply NoDup_cons in Hnodup as [Hp Hl].
    apply elem_of_cons in Hq as [-> | Hq].
    + destruct (resolve_parameter overrides p) eqn:Hres.
      * by rewrite lookup_insert_eq.
      * by apply execution_parameters_lookup_None.
    + assert (parameter_name p ≠ parameter_name q) as Hne.
      { intros Heq. apply Hp. rewrite Heq. by apply list_elem_of_fmap_2. }
      destruct (resolve_parameter overrides p);
        [rewrite lookup_insert_ne by done |]; by apply IH.
Qed.

Lemma pipeline_parameter_names_NoDup sm_session bucket role image_uri uri :
  NoDup (parameter_name <$>
           parameters (pipeline sm_session bucket role image_uri uri)).
Proof. apply (bool_decide_unpack _). by vm_compute. Qed.

(** A decidable fact about closed data, by evaluation. *)
Ltac by_evaluation := apply (bool_decide_unpack _); vm_compute; exact I.

(** What holds of a start of the notebook's pipeline with no dictionary or
    with the dictionary of the second start. *)
Lemma notebook_start_parameters sm_session bucket role image_uri uri
    (o : option (gmap string PrimitiveType)) :
  o = None \/ o = Some second_start_parameters ->
  let p := pipeline sm_session bucket role image_uri uri in
  let overrides : gmap string PrimitiveType := default ∅ o in
  dom overrides ⊆
    (list_to_set (parameter_name <$> parameters p) : gset string) /\
  Forall (fun q =>
            execution_parameters (parameters p) overrides
              !! parameter_name q =
              match overrides !! parameter_name q with
              | Some v => Some v
              | None => default_value q
              end)
         (parameters p) /\
  (fun q => (parameter_name q, second_start_parameters !! parameter_name q))
    <$> parameters p =
    [ ("ProcessingInstanceType", Some (PStr "ml.c5.xlarge"));
      ("ProcessingInstanceCount", None);
      ("TrainingMaxDepth", Some (PStr "6"));
      ("TrainingInstanceType", None);
      ("ModelApprovalStatus", Some (PStr "Approved"));
      ("InputDataUrl", None) ].
Proof.
  intros Ho p overrides. split; [| split; [| by vm_compute]].
  - subst overrides. destruct Ho as [-> | ->]; by_evaluation.
  - apply Forall_forall. intros q Hq.
    apply (execution_parameters_lookup (parameters p) overrides q);
      [apply pipeline_parameter_names_NoDup | done].
Qed.

(** C7: the notebook starts its pipeline twice, first without a dictionary
    and then with one that names ProcessingInstanceType, ModelApprovalStatus
    and TrainingMaxDepth, all three declared by the pipeline. In each of
    these executions every declared parameter the dictionary names has the
    value given there and every other declared parameter has its declared
    default: the second start leaves ProcessingInstanceCount,
    TrainingInstanceType and InputDataUrl at their defaults. What the
    notebook passes is read off its calls; the values in an execution are
    those of [execution_parameters], modelled from the spec. *)
Theorem start_overrides_only_named_parameters W
    (h : forall c : call, W -> W * (Exception + response c)) (w : W) :
  let started := starts (calls h notebook w) in
  match outcome h notebook w with
  | inr _ => started.*2 = [None; Some second_start_parameters]
  | inl _ => started.*2 `prefix_of` [None; Some second_start_parameters]
  end /\
  dom second_start_parameters =
    {[ "ProcessingInstanceType"; "ModelApprovalStatus"; "TrainingMaxDepth" ]} /\
  Forall (fun po =>
            let overrides : gmap string PrimitiveType := default ∅ po.2 in
            dom overrides ⊆
              (list_to_set (parameter_name <$> parameters po.1)
                 : gset string) /\
            Forall (fun q =>
                      execution_parameters (parameters po.1) overrides
                        !! parameter_name q =
                        match overrides !! parameter_name q with
                        | Some v => Some v
                        | None => default_value q
                        end)
                   (parameters po.1) /\
            (fun q => (parameter_name q,
                       second_start_parameters !! parameter_name q))
              <$> parameters po.1 =
              [ ("ProcessingInstanceType", Some (PStr "ml.c5.xlarge"));
                ("ProcessingInstanceCount", None);
                ("TrainingMaxDepth", Some (PStr "6"));
                ("TrainingInstanceType", None);
                ("ModelApprovalStatus", Some (PStr "Approved"));
                ("InputDataUrl", None) ])
         started.
Proof.
  cbv zeta. split; [| split; [by_evaluation |]].
  - run_notebook h; first [reflexivity | by eexists].
  - run_notebook h;
      repeat (apply Forall_cons_2;
              [apply notebook_start_parameters; auto |]);
      apply Forall_nil_2.
Qed.

(** ** Dependencies between the steps *)

Lemma prefix_of_four {A} (l : list A) a b c d :
  l `prefix_of` [a; b; c; d] ->
  l = [] \/ l = [a] \/ l = [a; b] \/ l = [a; b; c] \/ l = [a; b; c; d].
Proof.
  intros [k Hk].
  destruct l as [| x1 [| x2 [| x3 [| x4 [| x5 l]]]]]; simplify_eq/=; auto 6.
Qed.

Ltac refuted_by_evaluation H :=
  exfalso; apply (bool_decide_pack _) in H; vm_compute in H; exact H.

(** C8: the inputs "train" and "validation" of the training step are the
    outputs of those names of the processing step; the inputs of the
    evaluation step are the model artifacts of the training step and the
    output "test" of the processing step; the condition reads a property
    file of the evaluation step. So the steps can only complete in the order
    processing, training, evaluation, condition: every order in which the
    service may have completed steps is a prefix of that one. *)
Theorem steps_run_in_dependency_order
    sm_session bucket role image_uri uri (order : list string) :
  let process := step_process sm_session bucket role in
  let train := step_train sm_session bucket role image_uri in
  let eval := step_eval sm_session bucket role image_uri in
  let p := pipeline sm_session bucket role image_uri uri in
  (fun kv => (kv.1, s3_data kv.2)) <$> training_inputs train =
    [ ("train", output_uri process "train");
      ("validation", output_uri process "validation") ] /\
  input_source <$> processing_inputs eval =
    [ properties train [Attr "ModelArtifacts"; Attr "S3ModelArtifacts"];
      output_uri process "test" ] /\
  ["train"; "validation"; "test"] ⊆ output_name <$> processing_outputs process /\
  (fun s => (step_name s, remove_dups (step_dependencies s))) <$> steps p =
    [ ("CustomerChurnProcess", []);
      ("CustomerChurnTrain", ["CustomerChurnProcess"]);
      ("CustomerChurnEval", ["CustomerChurnTrain"; "CustomerChurnProcess"]);
      ("CustomerChurnAccuracyCond", ["CustomerChurnEval"]) ] /\
  (schedule (steps p) order ->
   order `prefix_of` [ "CustomerChurnProcess"; "CustomerChurnTrain";
                       "CustomerChurnEval"; "CustomerChurnAccuracyCond" ]).
Proof.
  intros process train eval p.
  split; [reflexivity |]. split; [reflexivity |].
  split; [by_evaluation |]. split; [by vm_compute |].
  induction 1 as [| done s _ IH Hs Hfresh Hdeps]; [by eexists |].
  apply Forall_forall in Hdeps.
  cbn in Hs. rewrite !elem_of_cons, elem_of_nil in Hs.
  apply prefix_of_four in IH.
  destruct IH as [-> | [-> | [-> | [-> | ->]]]];
    destruct Hs as [-> | [-> | [-> | [-> | []]]]];
    first [ by eexists
          | exfalso; apply Hfresh; by_evaluation
          | refuted_by_evaluation Hdeps ].
Qed.

(** ** The approval status of a registration *)

Lemma approval_status_of_an_execution sm_session bucket role image_uri uri
    (overrides : gmap string PrimitiveType) :
  execution_parameters
    (parameters (pipeline sm_session bucket role image_uri uri)) overrides
    !! "ModelApprovalStatus" =
  Some (default (PStr "PendingManualApproval")
          (overrides !! "ModelApprovalStatus")).
Proof.
  change "ModelApprovalStatus" with (parameter_name model_approval_status)
    at 1.
  rewrite execution_parameters_lookup.
  - unfold resolve_parameter.
    change (parameter_name model_approval_status) with "ModelApprovalStatus".
    by destruct (overrides !! "ModelApprovalStatus").
  - apply pipeline_parameter_names_NoDup.
  - cbn. do 4 apply list_elem_of_further. apply list_elem_of_here.
Qed.

(** C10: in every definition the notebook submits (one on a run that comes
    to its end), the registration nested in the condition step is the one
    step with an approval status, and it takes it from the parameter
    ModelApprovalStatus, declared with default "PendingManualApproval": in
    an execution started with a dictionary that does not name that parameter
    the approval status is "PendingManualApproval", and otherwise it is the
    value the dictionary gives. The notebook's first start gives no
    dictionary, so that execution registers with "PendingManualApproval";
    its second start gives "Approved". The step, the parameter and the
    dictionaries are read off the notebook; the value in an execution is
    that of [execution_parameters], modelled from the spec. *)
Theorem approval_status_defaults_to_pending W
    (h : forall c : call, W -> W * (Exception + response c)) (w : W) :
  let started := starts (calls h notebook w) in
  let status (po : Pipeline * option (gmap string PrimitiveType)) :=
    execution_parameters (parameters po.1) (default ∅ po.2)
      !! "ModelApprovalStatus" in
  match outcome h notebook w with
  | inr _ =>
      length (submitted (calls h notebook w)) = 1 /\
      status <$> started =
        [ Some (PStr "PendingManualApproval"); Some (PStr "Approved") ]
  | inl _ =>
      status <$> started `prefix_of`
        [ Some (PStr "PendingManualApproval"); Some (PStr "Approved") ]
  end /\
  Forall (fun p =>
            (fun s => (step_name s, step_approval_status s))
              <$> filter (fun s => is_Some (step_approval_status s))
                         (pipeline_steps p) =
              [ ("CustomerChurnRegisterModel",
                 Some (ParameterRef
                         (ParameterString "ModelApprovalStatus"
                            "PendingManualApproval"))) ] /\
            ParameterString "ModelApprovalStatus" "PendingManualApproval"
              ∈ parameters p /\
            forall overrides : gmap string PrimitiveType,
              execution_parameters (parameters p) overrides
                !! "ModelApprovalStatus" =
                Some (default (PStr "PendingManualApproval")
                        (overrides !! "ModelApprovalStatus")))
         (submitted (calls h notebook w)).
Proof.
  cbv zeta. split.
  - run_notebook h; rewrite ?approval_status_of_an_execution;
      first [by eexists | split; reflexivity].
  - run_notebook h; first [apply Forall_nil_2 | apply Forall_singleton];
      (split; [reflexivity |]);
      (split;
       [ cbn; do 4 apply list_elem_of_further; apply list_elem_of_here
       | apply approval_status_of_an_execution ]).
Qed.

(** ** The theorems at concrete inputs *)

(** Against [stub], the tenth call is the first start, and the upsert before
    it is found. *)
Lemma upsert_precedes_execution_calls_at_stub :
  let t := (run stub notebook 0).1.1 in
  (kind_of <$> t.*1) !! 9 = Some KStart /\
  exists j cw, j < 9 /\ t !! j = Some cw /\ kind_of cw.1 = KUpsert /\
               returns stub cw.
Proof.
  cbv zeta. split; [by vm_compute |].
  apply (proj2 (proj2 (upsert_precedes_execution_calls nat stub 0)) 9 KStart).
  - by vm_compute.
  - apply (bool_decide_unpack _). by vm_compute.
Defined.

(** Processing, then training, is an order the service may have completed
    steps in. *)
Lemma steps_run_in_dependency_order_at_two_steps :
  schedule (steps service_pipeline)
    ["CustomerChurnProcess"; "CustomerChurnTrain"] /\
  ["CustomerChurnProcess"; "CustomerChurnTrain"] `prefix_of`
    [ "CustomerChurnProcess"; "CustomerChurnTrain";
      "CustomerChurnEval"; "CustomerChurnAccuracyCond" ].
Proof.
  assert (schedule (steps service_pipeline)
            ["CustomerChurnProcess"; "CustomerChurnTrain"]) as Hschedule.
  { apply (schedule_snoc _ ["CustomerChurnProcess"]
             (step_train {| region_name := "us-east-1" |}
                "sagemaker-us-east-1-000000000000"
                "arn:aws:iam::000000000000:role/SageMakerExecutionRole"
                "xgboost:1.3-1")).
    - apply (schedule_snoc _ []
               (step_process {| region_name := "us-east-1" |}
                  "sagemaker-us-east-1-000000000000"
                  "arn:aws:iam::000000000000:role/SageMakerExecutionRole")).
      + apply schedule_nil.
      + apply list_elem_of_here.
      + apply not_elem_of_nil.
      + intros d Hd. by vm_compute in Hd.
    - apply list_elem_of_further, list_elem_of_here.
    - apply (bool_decide_unpack _). by vm_compute.
    - apply Forall_forall. apply (bool_decide_unpack _). by vm_compute. }
  split; [exact Hschedule |].
  exact (proj2 (proj2 (proj2 (proj2
           (steps_run_in_dependency_order
              {| region_name := "us-east-1" |}
              "sagemaker-us-east-1-000000000000"
              "arn:aws:iam::000000000000:role/SageMakerExecutionRole"
              "xgboost:1.3-1"
              "s3://sagemaker-us-east-1-000000000000/CustomerChurnEval/output"
              ["CustomerChurnProcess"; "CustomerChurnTrain"])))) Hschedule).
Defined.

(** * Further properties of the notebook *)

(** Case analysis on the answers, for statements about the trace. *)
Ltac run_trace h := unfold notebook; cbn; repeat answer h.

(** The answering call is found in the trace, with its answer. *)
Ltac find_answer h :=
  eexists; split;
  [ repeat first [apply list_elem_of_here | apply list_elem_of_further]
  | match goal with
    | H : h _ ?w = (_, inr ?r) |- (h _ ?w).2 = inr tt =>
        destruct r; exact (f_equal snd H)
    | H : h _ ?w = _ |- (h _ ?w).2 = _ => exact (f_equal snd H)
    end ].

(** X1: whatever the answers, each definition the notebook submits creates
    every one of its jobs (preprocessing, training, evaluation and the
    nested registration) with the role that [get_execution_role] answered
    and in the session that [sagemaker.Session()] answered, and it is
    handed to [upsert] with that same role. *)
Theorem jobs_run_under_the_submitted_role W
    (h : forall c : call, W -> W * (Exception + response c)) (w : W) :
  let t := (run h notebook w).1.1 in
  Forall (fun pr =>
            exists session,
              answered h t sagemaker_Session session /\
              answered h t get_execution_role pr.2 /\
              step_role <$> pipeline_steps pr.1 =
                [Some pr.2; Some pr.2; Some pr.2; None; Some pr.2] /\
              step_session <$> pipeline_steps pr.1 =
                [Some session; Some session; Some session; None;
                 Some session] /\
              pipeline_session pr.1 = session)
         (upserts t.*1).
Proof.
  run_trace h; first [apply Forall_nil_2 | apply Forall_singleton];
    cbv beta; eexists;
    (split; [find_answer h |]); (split; [find_answer h |]);
    repeat split.
Qed.

(** X2: whatever the answers, nothing is submitted in the first eight
    calls, and when a definition is submitted the raw data has been
    uploaded in those calls, and the upload returned, to the key
    [sagemaker/DEMO-pipelines-churn/data/RawData.csv] of the bucket that
    [default_bucket] answered. The preprocessing step has one input, "raw",
    which reads the string parameter InputDataUrl, whose default is the URI
    of the uploaded object. The models are written below the same bucket. *)
Theorem raw_data_is_staged_before_submission W
    (h : forall c : call, W -> W * (Exception + response c)) (w : W) :
  let t := (run h notebook w).1.1 in
  Forall (fun pr =>
            exists session bucket,
              upserts (take 8 t.*1) = [] /\
              answered h (take 8 t) sagemaker_Session session /\
              answered h (take 8 t) (default_bucket session) bucket /\
              answered h (take 8 t)
                (upload_file bucket
                   "sagemaker/DEMO-pipelines-churn/data/RawData.csv"
                   "./data/churn.txt") tt /\
              (fun s => (step_name s,
                         (fun i => (input_name i, input_source i,
                                    input_destination i))
                           <$> processing_inputs s))
                <$> head (steps pr.1) =
                Some ("CustomerChurnProcess",
                      [ (Some "raw",
                         ParameterRef
                           {| parameter_name := "InputDataUrl";
                              parameter_type := STRING;
                              default_value :=
                                Some (PStr ("s3://" +:+ bucket +:+
                                            "/sagemaker/DEMO-pipelines-churn/data/RawData.csv")) |},
                         "/opt/ml/processing/input/raw") ]) /\
              estimator_output_path <$> omap step_estimator (pipeline_steps pr.1) =
                replicate 2
                  ("s3://" +:+ bucket +:+ "/CustomerChurn/CustomerChurnTrain"))
         (upserts t.*1).
Proof.
  run_trace h; first [apply Forall_nil_2 | apply Forall_singleton];
    cbv beta; do 2 eexists;
    (split; [reflexivity |]);
    (split; [find_answer h |]); (split; [find_answer h |]);
    (split; [find_answer h |]);
    split; reflexivity.
Qed.

(** X3: whatever the answers, in each definition the notebook submits the
    training, the evaluation and the registration use one image, the one
    that [image_uris.retrieve] answered for XGBoost 1.3-1 in the session's
    region; the registration is given the very estimator of the training
    step, with the seven hyperparameters set on it, and as model data the
    model artifacts of the training step, which is also what the evaluation
    reads at [/opt/ml/processing/model]. *)
Theorem registered_model_is_the_trained_and_evaluated_one W
    (h : forall c : call, W -> W * (Exception + response c)) (w : W) :
  let t := (run h notebook w).1.1 in
  Forall (fun pr =>
            exists session image estimator,
              answered h t sagemaker_Session session /\
              answered h t
                (image_uris_retrieve "xgboost" (region_name session) "1.3-1"
                   "py3" (ParameterRef training_instance_type)) image /\
              (fun s => (step_name s, step_image s)) <$> pipeline_steps pr.1 =
                [ ("CustomerChurnProcess", None);
                  ("CustomerChurnTrain", Some image);
                  ("CustomerChurnEval", Some image);
                  ("CustomerChurnAccuracyCond", None);
                  ("CustomerChurnRegisterModel", Some image) ] /\
              (fun s => (step_kind s, step_estimator s))
                <$> filter (fun s => is_Some (step_estimator s))
                           (pipeline_steps pr.1) =
                [ (Training, Some estimator); (Registration, Some estimator) ] /\
              (hyperparameters estimator).*1 =
                [ "objective"; "num_round"; "max_depth"; "eta"; "gamma";
                  "min_child_weight"; "subsample" ] /\
              omap step_model_data (pipeline_steps pr.1) =
                [ Properties "CustomerChurnTrain"
                    [Attr "ModelArtifacts"; Attr "S3ModelArtifacts"] ] /\
              input_source
                <$> filter (fun i => input_destination i =
                                       "/opt/ml/processing/model")
                           (pipeline_steps pr.1 ≫= processing_inputs) =
                omap step_model_data (pipeline_steps pr.1))
         (upserts t.*1).
Proof.
  run_trace h; first [apply Forall_nil_2 | apply Forall_singleton];
    cbv beta; do 3 eexists;
    (split; [find_answer h |]); (split; [find_answer h |]);
    repeat split.
Qed.

(** ** Where the parameters reach the jobs *)

(** X4: whatever the answers, in each definition the notebook submits the
    preprocessing and the evaluation job both take their instance type from
    the parameter ProcessingInstanceType (default "ml.m5.xlarge") and the
    training job takes it from TrainingInstanceType (default
    "ml.m5.xlarge"); the parameter ProcessingInstanceCount (default 1) is
    the instance count of the preprocessing job only: the evaluation and the
    training job are given the literal count 1. *)
Theorem instance_types_and_counts_of_the_jobs W
    (h : forall c : call, W -> W * (Exception + response c)) (w : W) :
  Forall (fun p =>
            (fun s => (step_name s, step_instance_type s,
                       step_instance_count s)) <$> pipeline_steps p =
              [ ("CustomerChurnProcess",
                 Some (ParameterRef
                         (ParameterString "ProcessingInstanceType"
                            "ml.m5.xlarge")),
                 Some (ParameterRef
                         (ParameterInteger "ProcessingInstanceCount" 1)));
                ("CustomerChurnTrain",
                 Some (ParameterRef
                         (ParameterString "TrainingInstanceType"
                            "ml.m5.xlarge")),
                 Some (Primitive (PInt 1)));
                ("CustomerChurnEval",
                 Some (ParameterRef
                         (ParameterString "ProcessingInstanceType"
                            "ml.m5.xlarge")),
                 Some (Primitive (PInt 1)));
                ("CustomerChurnAccuracyCond", None, None);
                ("CustomerChurnRegisterModel", None, None) ])
         (submitted (calls h notebook w)).
Proof.
  run_notebook h; first [apply Forall_nil_2 | apply Forall_singleton];
    reflexivity.
Qed.

(** X5: whatever the answers, in each definition the notebook submits the
    estimator of the training step holds the seven hyperparameters set on
    it after its construction: objective "binary:logistic", num_round 50,
    eta 0.2, gamma 4, min_child_weight 6 and subsample 0.7 as literals, and
    max_depth as the parameter TrainingMaxDepth (a string, default "5"), the
    only pipeline parameter among them; the estimator given to the
    registration holds the same ones. *)
Theorem hyperparameters_of_the_estimator W
    (h : forall c : call, W -> W * (Exception + response c)) (w : W) :
  Forall (fun p =>
            (fun s => (step_kind s, hyperparameters <$> step_estimator s))
              <$> filter (fun s => is_Some (step_estimator s))
                         (pipeline_steps p) =
              (fun k =>
                 (k, Some [ ("objective", Primitive (PStr "binary:logistic"));
                            ("num_round", Primitive (PInt 50));
                            ("max_depth",
                             ParameterRef
                               (ParameterString "TrainingMaxDepth" "5"));
                            ("eta", Primitive (PFloat 0.2));
                            ("gamma", Primitive (PInt 4));
                            ("min_child_weight", Primitive (PInt 6));
                            ("subsample", Primitive (PFloat 0.7)) ]))
                <$> [Training; Registration])
         (submitted (calls h notebook w)).
Proof.
  run_notebook h; first [apply Forall_nil_2 | apply Forall_singleton];
    reflexivity.
Qed.

(** ** The executions the notebook follows *)

(** The start at position [j] answers for the call at hand. *)
Ltac started_at h j :=
  exists j; do 3 eexists;
  split; [lia |]; split; [reflexivity |]; split;
  [ match goal with
    | H : h _ ?w = _ |- (h _ ?w).2 = _ => exact (f_equal snd H)
    end |];
  split; [cbn; apply list_elem_of_here |];
  let k := fresh "k" in
  intros k [? ?];
  do 15 (destruct k as [| k]; [first [lia | by cbn] |]); lia.

(** X6: whatever the answers, every describe, wait and list_steps of the
    notebook is made on the execution that the most recent start returned:
    the first three on the first execution and, the name [execution] being
    bound anew, the last wait on the second; and every start starts a
    definition that was handed to upsert. *)
Theorem execution_calls_follow_the_latest_start W
    (h : forall c : call, W -> W * (Exception + response c)) (w : W)
    (i : nat) (c : call) (wi : W) (e : Execution) :
  let t := (run h notebook w).1.1 in
  t !! i = Some (c, wi) ->
  call_handle c = Some e ->
  exists j p overrides wj,
    j < i /\
    t !! j = Some (start p overrides, wj) /\
    (h (start p overrides) wj).2 = inr e /\
    p ∈ (upserts (take j t.*1)).*1 /\
    forall k, j < k < i -> kind_of <$> t.*1 !! k ≠ Some KStart.
Proof.
  run_trace h; intros Hi He;
    repeat (destruct i as [| i];
            [ cbn in Hi; injection Hi as <- <-; cbn in He;
              first [ discriminate He | injection He as <- ] |]);
    try (by cbn in Hi);
    first [ solve [started_at h 13] | solve [started_at h 9] ].
Qed.

(** ** The evaluation report *)

(** X7: whatever the answers, in each definition the notebook submits the
    evaluation step declares one property file, which reads
    [evaluation.json] of the output named "evaluation"; that output is the
    first output of the step, the one whose URI the notebook asked for, and
    the model statistics registered with the model are the JSON file
    [evaluation.json] below that URI. *)
Theorem registered_statistics_are_the_evaluation_report W
    (h : forall c : call, W -> W * (Exception + response c)) (w : W) :
  let t := (run h notebook w).1.1 in
  Forall (fun pr =>
            exists eval uri,
              filter (fun s => step_name s = "CustomerChurnEval")
                     (pipeline_steps pr.1) = [eval] /\
              answered h t (step_output_s3uri eval 0) uri /\
              (fun f => (property_file_output_name f, property_file_path f))
                <$> step_property_files eval =
                [ ("evaluation", "evaluation.json") ] /\
              output_name <$> processing_outputs eval !! 0 =
                Some "evaluation" /\
              omap step_model_statistics (pipeline_steps pr.1) =
                [ {| metrics_s3_uri := uri +:+ "/evaluation.json";
                     metrics_content_type := "application/json" |} ])
         (upserts t.*1).
Proof.
  run_trace h; first [apply Forall_nil_2 | apply Forall_singleton];
    cbv beta; do 2 eexists;
    (split; [reflexivity |]); (split; [find_answer h |]);
    repeat split.
Qed.

(** ** Parameters and references of the definition *)

(** X8: whatever the answers, in each definition the notebook submits
    every pipeline parameter that a step refers to, the nested registration
    included, is among the parameters of the pipeline, and every parameter of
    the pipeline is referred to by some step. *)
Theorem parameters_used_are_the_parameters_declared W
    (h : forall c : call, W -> W * (Exception + response c)) (w : W) :
  Forall (fun p =>
            Forall (fun q => q ∈ parameters p)
                   (pipeline_steps p ≫= step_parameters) /\
            Forall (fun q => q ∈ pipeline_steps p ≫= step_parameters)
                   (parameters p))
         (submitted (calls h notebook w)).
Proof.
  run_notebook h; first [apply Forall_nil_2 | apply Forall_singleton];
    split; cbn;
    repeat (apply Forall_cons_2;
            [ repeat first [apply list_elem_of_here | apply list_elem_of_further]
            |]);
    apply Forall_nil_2.
Qed.

(** Steps with distinct names, each of which refers only to steps before
    it in the list, can be completed in the order of the list. *)
Lemma list_order_is_a_schedule (ss : list Step) :
  NoDup (step_name <$> ss) ->
  (forall i s d, ss !! i = Some s -> d ∈ step_dependencies s ->
                 d ∈ step_name <$> take i ss) ->
  schedule ss (step_name <$> ss).
Proof.
  intros Hnodup Hdeps.
  assert (forall n, n <= length ss -> schedule ss (step_name <$> take n ss))
    as Hprefix.
  { induction n as [| n IH]; intros Hn; [rewrite take_0; constructor |].
    destruct (lookup_lt_is_Some_2 ss n) as [s Hs]; [lia |].
    rewrite (take_S_r _ _ _ Hs), fmap_app. cbn.
    apply schedule_snoc.
    - apply IH. lia.
    - by eapply list_elem_of_lookup_2.
    - rewrite <- (take_drop_middle _ _ _ Hs), fmap_app in Hnodup.
      apply NoDup_app in Hnodup as (_ & Hfresh & _).
      intros Hin. apply (Hfresh _ Hin). cbn. apply list_elem_of_here.
    - intros d Hd. by eapply Hdeps. }
  specialize (Hprefix (length ss) ltac:(lia)). by rewrite firstn_all in Hprefix.
Qed.

(** X9: the steps of the notebook's pipeline, the nested registration
    included, have distinct names, and each refers only to steps that come
    before it in the list; so processing, training, evaluation, condition
    is an order in which the service can complete all four, and the
    registration nested in the condition refers only to steps completed
    before the condition. *)
Theorem pipeline_can_run_in_list_order sm_session bucket role image_uri uri :
  let p := pipeline sm_session bucket role image_uri uri in
  NoDup (step_name <$> pipeline_steps p) /\
  schedule (steps p)
    [ "CustomerChurnProcess"; "CustomerChurnTrain"; "CustomerChurnEval";
      "CustomerChurnAccuracyCond" ] /\
  Forall (fun d => d ∈ [ "CustomerChurnProcess"; "CustomerChurnTrain";
                         "CustomerChurnEval" ])
         ((steps p ≫= step_if_steps) ≫= step_dependencies).
Proof.
  intros p. split; [by_evaluation |]. split; [| by_evaluation].
  apply (list_order_is_a_schedule (steps p)); [by_evaluation |].
  intros i s d Hs Hd.
  do 4 (destruct i as [| i];
        [ injection Hs as <-; revert d Hd; apply Forall_forall; by_evaluation
        |]).
  by cbn in Hs.
Qed.

(** ** The same at concrete answers *)

(** Against [stub], the last call waits for the second execution, which the
    start just before it returned. *)
Lemma execution_calls_follow_the_latest_start_at_stub :
  let t := (run stub notebook 0).1.1 in
  t !! 14 = Some (wait {| execution_id := 1 |}, 2) /\
  exists j p overrides wj,
    j < 14 /\
    t !! j = Some (start p overrides, wj) /\
    (stub (start p overrides) wj).2 = inr {| execution_id := 1 |} /\
    p ∈ (upserts (take j t.*1)).*1 /\
    forall k, j < k < 14 -> kind_of <$> t.*1 !! k ≠ Some KStart.
Proof.
  cbv zeta.
  assert ((run stub notebook 0).1.1 !! 14 =
          Some (wait {| execution_id := 1 |}, 2)) as Hi by (by vm_compute).
  split; [exact Hi |].
  exact (execution_calls_follow_the_latest_start nat stub 0 14 _ _ _ Hi
           eq_refl).
Defined.
